(** * A shallow embedding of [server/main.py]

    The REST facade is modelled handler by handler.  A handler is a
    computation over the process-wide state (the global [MEMORY_INSTANCE]),
    which either returns a response or raises.  The Memory Engine is an
    opaque collaborator: its behaviour is a parameter of the development,
    and every call made to it is recorded so that statements such as
    "the engine is not invoked" can be phrased. *)

From Stdlib Require Import String List ZArith Bool.
Import ListNotations.
Open Scope string_scope.
Open Scope list_scope.

Set Warnings "-register-all".

(** ** Python values *)

(** [typing.Any]: the free-form JSON-like values carried by metadata,
    filters, configuration mappings and engine results. *)
Inductive Any : Type :=
| ANone
| ABool (b : bool)
| AInt (z : Z)
| AStr (s : string)
| AList (l : list Any)
| ADict (d : list (string * Any)).

(** [Dict[str, Any]]; insertion ordered, as Python dictionaries are. *)
Definition Dict := list (string * Any).

(** [v is not None] *)
Definition is_not_None (v : Any) : bool :=
  match v with
  | ANone => false
  | _ => true
  end.

(** Truth value of an [Optional[str]]: [None] and [""] are falsy. *)
Definition truthy (o : option string) : bool :=
  match o with
  | None => false
  | Some s => negb (s =? "")
  end.

(** The builtin [any] on a list of truth values. *)
Definition any (l : list bool) : bool := existsb (fun b => b) l.

Definition of_str (o : option string) : Any :=
  match o with
  | None => ANone
  | Some s => AStr s
  end.

Definition of_dict (o : option Dict) : Any :=
  match o with
  | None => ANone
  | Some d => ADict d
  end.

(** ** Exceptions *)

(** A Python exception as the handlers see it: [str(e)] is all they use. *)
Inductive PyException : Type :=
| Exception (msg : string).

Definition str (e : PyException) : string :=
  match e with
  | Exception msg => msg
  end.

(** What leaves a handler when it does not return: an [HTTPException] the
    handler raised itself, or any other exception left uncaught. *)
Inductive Raised : Type :=
| HTTPException (status_code : Z) (detail : string)
| Uncaught (e : PyException).

(** ** Request data *)

(** [request.client]: the peer address, or [None] when the transport gives
    none. *)
Record Address : Type := { host : string; port : Z }.

Record Request : Type := { client : option Address }.

Record HTTPAuthorizationCredentials : Type :=
  { scheme : string; credentials : string }.

Record Message : Type := { role : string; content : string }.

Module MemoryCreate.
Record t : Type :=
  { messages : list Message;
    user_id : option string;
    agent_id : option string;
    run_id : option string;
    metadata : option Dict }.
End MemoryCreate.

Module MemoryFilter.
Record t : Type :=
  { user_id : option string;
    agent_id : option string;
    run_id : option string;
    filters : option Dict }.
End MemoryFilter.

Module SearchRequest.
Record t : Type :=
  { query : string;
    user_id : option string;
    run_id : option string;
    agent_id : option string;
    filters : option Dict }.
End SearchRequest.

(** [BaseModel.model_dump]: the fields in declaration order. *)
Class BaseModel (A : Type) : Type := model_dump : A -> Dict.

#[global] Instance Message_model : BaseModel Message :=
  fun m => [("role", AStr (role m)); ("content", AStr (content m))].

#[global] Instance MemoryCreate_model : BaseModel MemoryCreate.t :=
  fun m =>
    [("messages", AList (map (fun x => ADict (model_dump x)) (MemoryCreate.messages m)));
     ("user_id", of_str (MemoryCreate.user_id m));
     ("agent_id", of_str (MemoryCreate.agent_id m));
     ("run_id", of_str (MemoryCreate.run_id m));
     ("metadata", of_dict (MemoryCreate.metadata m))].

#[global] Instance SearchRequest_model : BaseModel SearchRequest.t :=
  fun m =>
    [("query", AStr (SearchRequest.query m));
     ("user_id", of_str (SearchRequest.user_id m));
     ("run_id", of_str (SearchRequest.run_id m));
     ("agent_id", of_str (SearchRequest.agent_id m));
     ("filters", of_dict (SearchRequest.filters m))].

Definition safe_dump {A : Type} `{BaseModel A} (model : A) : Dict :=
  model_dump model.

(** The comprehension [{k: v for k, v in d.items() if v is not None and k != key}]. *)
Definition not_None_except (key : string) (d : Dict) : Dict :=
  filter (fun kv => is_not_None (snd kv) && negb (fst kv =? key)) d.

(** The comprehension [{k: v for k, v in d.items() if v is not None}]. *)
Definition not_None (d : Dict) : Dict :=
  filter (fun kv => is_not_None (snd kv)) d.

(** ** Responses *)

Inductive Response : Type :=
| JSONResponse (content : Any)
| Returned (value : Any)
| MessageDict (message : string)
| RedirectResponse (url : string).

(** ** Calls made to the Memory Engine *)

Inductive Call : Type :=
| add_call (messages : list Dict) (kwargs : Dict)
| get_all_call (kwargs : Dict)
| get_call (memory_id : string)
| search_call (query : string) (kwargs : Dict)
| update_call (memory_id : string) (data : Dict)
| history_call (memory_id : string)
| delete_call (memory_id : string)
| delete_all_call (kwargs : Dict)
| reset_call.

(** What the server asks of the engine library: [Memory.from_config(config)]
    builds an instance, every other operation is a method of an instance. *)
Inductive EngineEvent : Type :=
| from_config_event (config : Dict)
| method_event (c : Call).

(** ** A small engine to run the handlers on

    An instance is the configuration it was built from; an empty
    configuration is refused, and looking up the empty identifier fails. *)

Definition toy_from_config (config : Dict) : PyException + Dict :=
  match config with
  | [] => inl (Exception "empty configuration")
  | _ => inr config
  end.

Definition toy_invoke (m : Dict) (c : Call) : (PyException + Any) * Dict :=
  match c with
  | add_call msgs _ => (inr (AInt (Z.of_nat (length msgs))), m)
  | get_all_call kwargs => (inr (ADict kwargs), m)
  | get_call memory_id =>
      if memory_id =? "" then (inl (Exception "memory not found"), m)
      else (inr (AStr memory_id), m)
  | search_call q kwargs => (inr (AList [AStr q; ADict kwargs]), m)
  | update_call memory_id data => (inr (ADict data), m)
  | history_call _ => (inr (AList []), m)
  | delete_call _ => (inr ANone, m)
  | delete_all_call _ => (inr ANone, m)
  | reset_call => (inr ANone, [])
  end.

(** Every value of [Any] is plain JSON data and renders. *)
Definition toy_render_error (content : Any) : option PyException := None.

(** A rendering that refuses integers, to run the failing path. *)
Definition no_int_render_error (content : Any) : option PyException :=
  match content with
  | AInt _ => Some (Exception "Object of type int64 is not JSON serializable")
  | _ => None
  end.

(** ** Requests to run the handlers on *)

Definition dashboard_request : Request :=
  {| client := Some {| host := "10.0.1.151"; port := 40312 |} |}.

Definition outside_request : Request :=
  {| client := Some {| host := "9.9.9.9"; port := 51844 |} |}.

Definition bearer (token : string) : option HTTPAuthorizationCredentials :=
  Some {| scheme := "Bearer"; credentials := token |}.

(** ** The access guard *)

(** The dashboard container addresses listed in [verify_api_key]. *)
Definition dashboard_ips : list string := ["10.0.1.151"; "172.23.0.5"].

(** [x in l] on a list of strings. *)
Definition contains (l : list string) (x : string) : bool :=
  existsb (String.eqb x) l.

(** [s != k] for a string [s] and an [Optional[str]] [k]. *)
Definition differs (s : string) (k : option string) : bool :=
  match k with
  | None => true
  | Some k' => negb (s =? k')
  end.

Section Server.

(** [os.environ.get("MEM0_API_KEY")] *)
Variable MEM0_API_KEY : option string.

Definition verify_api_key (request : Request)
  (creds : option HTTPAuthorizationCredentials) : Raised + option string :=
  match client request with
  | None => inl (Uncaught (Exception "'NoneType' object has no attribute 'host'"))
  | Some addr =>
      let client_ip := host addr in
      if contains dashboard_ips client_ip then inr None
      else if negb (truthy MEM0_API_KEY) then
        inl (HTTPException 500 "API key not configured")
      else
        match creds with
        | None => inl (HTTPException 403 "Invalid API key")
        | Some c =>
            if differs (credentials c) MEM0_API_KEY
            then inl (HTTPException 403 "Invalid API key")
            else inr (Some (credentials c))
        end
  end.

(** *** The Memory Engine and the process-wide state *)

(** The engine is external: an instance is a value of type [Memory], a
    method call answers with a result or an exception and may change the
    instance's own state; [Memory.from_config] builds an instance or raises. *)
Context {Memory : Type}.
Variable from_config : Dict -> PyException + Memory.
Variable invoke : Memory -> Call -> (PyException + Any) * Memory.

(** [JSONResponse(content=...)] renders its content as JSON when it is
    built, and raises when the content cannot be rendered.  The rendering
    is the framework's: [render_error content] is the exception it raises
    on [content], if any. *)
Variable render_error : Any -> option PyException.

(** The module-level global, together with the record of the engine
    operations requested so far. *)
Record World : Type :=
  { MEMORY_INSTANCE : Memory;
    engine_log : list EngineEvent }.

(** Computations that read and write the world and may raise an [E]. *)
Definition M (E A : Type) : Type := World -> (E + A) * World.

Definition ret {E A : Type} (a : A) : M E A := fun w => (inr a, w).

Definition raise {E A : Type} (e : E) : M E A := fun w => (inl e, w).

Definition lift {E A : Type} (r : E + A) : M E A := fun w => (r, w).

Definition bind {E A B : Type} (m : M E A) (k : A -> M E B) : M E B :=
  fun w =>
    match m w with
    | (inl e, w') => (inl e, w')
    | (inr a, w') => k a w'
    end.

(** [try: body  except Exception as e: handler e] *)
Definition try_except {E E' A : Type} (body : M E A) (handler : E -> M E' A)
  : M E' A :=
  fun w =>
    match body w with
    | (inl e, w') => handler e w'
    | (inr a, w') => (inr a, w')
    end.

(** An engine operation outside any [try]: its exception leaves the handler
    as it is. *)
Definition uncaught {A : Type} (body : M PyException A) : M Raised A :=
  try_except body (fun e => raise (Uncaught e)).

(** The [except Exception as e] clause shared by the handlers:
    [raise HTTPException(status_code=500, detail=str(e))]. *)
Definition server_error {A : Type} (e : PyException) : M Raised A :=
  raise (HTTPException 500 (str e)).

Notation "x <- m ;; k" := (bind m (fun x => k))
  (at level 61, m at next level, right associativity).
Notation "m ;;; k" := (bind m (fun _ => k))
  (at level 61, right associativity).

(** [Memory.from_config(config)] *)
Definition Memory_from_config (config : Dict) : M PyException Memory :=
  fun w =>
    (from_config config,
     {| MEMORY_INSTANCE := MEMORY_INSTANCE w;
        engine_log := engine_log w ++ [from_config_event config] |}).

(** [MEMORY_INSTANCE.<method>(...)] on the instance currently held. *)
Definition MEMORY_INSTANCE_call (c : Call) : M PyException Any :=
  fun w =>
    let (r, m') := invoke (MEMORY_INSTANCE w) c in
    (r, {| MEMORY_INSTANCE := m';
           engine_log := engine_log w ++ [method_event c] |}).

(** [global MEMORY_INSTANCE; MEMORY_INSTANCE = m] *)
Definition assign_MEMORY_INSTANCE {E : Type} (m : Memory) : M E unit :=
  fun w => (inr tt, {| MEMORY_INSTANCE := m; engine_log := engine_log w |}).

(** [JSONResponse(content=content)] *)
Definition JSONResponse_init (content : Any) : M PyException Response :=
  match render_error content with
  | Some e => raise e
  | None => ret (JSONResponse content)
  end.

(** *** The handlers *)

Definition set_config (request : Request) (config : Dict)
  (creds : option HTTPAuthorizationCredentials) : M Raised Response :=
  lift (verify_api_key request creds) ;;;
  m <- uncaught (Memory_from_config config) ;;
  assign_MEMORY_INSTANCE m ;;;
  ret (MessageDict "Configuration set successfully").

Definition add_memory (request : Request) (memory_create : MemoryCreate.t)
  (creds : option HTTPAuthorizationCredentials) : M Raised Response :=
  lift (verify_api_key request creds) ;;;
  if negb (any [truthy (MemoryCreate.user_id memory_create);
                truthy (MemoryCreate.agent_id memory_create);
                truthy (MemoryCreate.run_id memory_create)])
  then raise (HTTPException 400
         "At least one identifier (user_id, agent_id, run_id) is required.")
  else
    let data := safe_dump memory_create in
    let params := not_None_except "messages" data in
    try_except
      (response <- MEMORY_INSTANCE_call
                     (add_call (map safe_dump (MemoryCreate.messages memory_create))
                               params) ;;
       JSONResponse_init response)
      server_error.

Definition filter_memories_post (request : Request)
  (filter_req : option MemoryFilter.t)
  (creds : option HTTPAuthorizationCredentials) : M Raised Response :=
  lift (verify_api_key request creds) ;;;
  let '(user_id, agent_id, run_id) :=
    match filter_req with
    | Some f => (MemoryFilter.user_id f, MemoryFilter.agent_id f, MemoryFilter.run_id f)
    | None => (None, None, None)
    end in
  if negb (any [truthy user_id; truthy agent_id; truthy run_id])
  then raise (HTTPException 400 "At least one identifier is required.")
  else
    try_except
      (let params := not_None [("user_id", of_str user_id);
                               ("run_id", of_str run_id);
                               ("agent_id", of_str agent_id)] in
       v <- MEMORY_INSTANCE_call (get_all_call params) ;;
       ret (Returned v))
      server_error.

Definition get_all_memories (request : Request)
  (user_id run_id agent_id : option string)
  (creds : option HTTPAuthorizationCredentials) : M Raised Response :=
  lift (verify_api_key request creds) ;;;
  if negb (any [truthy user_id; truthy run_id; truthy agent_id])
  then raise (HTTPException 400 "At least one identifier is required.")
  else
    try_except
      (let params := not_None [("user_id", of_str user_id);
                               ("run_id", of_str run_id);
                               ("agent_id", of_str agent_id)] in
       v <- MEMORY_INSTANCE_call (get_all_call params) ;;
       ret (Returned v))
      server_error.

Definition get_memory (request : Request) (memory_id : string)
  (creds : option HTTPAuthorizationCredentials) : M Raised Response :=
  lift (verify_api_key request creds) ;;;
  try_except
    (v <- MEMORY_INSTANCE_call (get_call memory_id) ;;
     ret (Returned v))
    server_error.

Definition search_memories (request : Request) (search_req : SearchRequest.t)
  (creds : option HTTPAuthorizationCredentials) : M Raised Response :=
  lift (verify_api_key request creds) ;;;
  try_except
    (let params := not_None_except "query" (safe_dump search_req) in
     v <- MEMORY_INSTANCE_call (search_call (SearchRequest.query search_req) params) ;;
     ret (Returned v))
    server_error.

Definition update_memory (request : Request) (memory_id : string)
  (updated_memory : Dict)
  (creds : option HTTPAuthorizationCredentials) : M Raised Response :=
  lift (verify_api_key request creds) ;;;
  try_except
    (v <- MEMORY_INSTANCE_call (update_call memory_id updated_memory) ;;
     ret (Returned v))
    server_error.

Definition memory_history (request : Request) (memory_id : string)
  (creds : option HTTPAuthorizationCredentials) : M Raised Response :=
  lift (verify_api_key request creds) ;;;
  try_except
    (v <- MEMORY_INSTANCE_call (history_call memory_id) ;;
     ret (Returned v))
    server_error.

Definition delete_memory (request : Request) (memory_id : string)
  (creds : option HTTPAuthorizationCredentials) : M Raised Response :=
  lift (verify_api_key request creds) ;;;
  try_except
    (MEMORY_INSTANCE_call (delete_call memory_id) ;;;
     ret (MessageDict "Memory deleted successfully"))
    server_error.

Definition delete_all_memories (request : Request)
  (user_id run_id agent_id : option string)
  (creds : option HTTPAuthorizationCredentials) : M Raised Response :=
  lift (verify_api_key request creds) ;;;
  if negb (any [truthy user_id; truthy run_id; truthy agent_id])
  then raise (HTTPException 400 "At least one identifier is required.")
  else
    try_except
      (let params := not_None [("user_id", of_str user_id);
                               ("run_id", of_str run_id);
                               ("agent_id", of_str agent_id)] in
       MEMORY_INSTANCE_call (delete_all_call params) ;;;
       ret (MessageDict "All relevant memories deleted"))
      server_error.

Definition reset_memory (request : Request)
  (creds : option HTTPAuthorizationCredentials) : M Raised Response :=
  lift (verify_api_key request creds) ;;;
  try_except
    (MEMORY_INSTANCE_call reset_call ;;;
     ret (MessageDict "All memories reset"))
    server_error.


(** ** Vocabulary of the statements *)

(** An identifier that is [None] or the empty string. *)
Definition empty_or_absent (o : option string) : Prop :=
  o = None \/ o = Some "".

(** The access guard lets the request through. *)
Definition guard_passes (request : Request)
  (creds : option HTTPAuthorizationCredentials) : Prop :=
  exists v, verify_api_key request creds = inr v.

(** Handler [h], whose one engine call is [c], turns an exception of that
    call into [HTTPException(500, str(e))], having called the engine once. *)
Definition converts_engine_exception (h : M Raised Response) (c : Call)
  (w : World) : Prop :=
  forall (e : PyException) (m' : Memory),
    invoke (MEMORY_INSTANCE w) c = (inl e, m') ->
    h w = (inl (HTTPException 500 (str e)),
           {| MEMORY_INSTANCE := m';
              engine_log := engine_log w ++ [method_event c] |}).

(** ** Properties of the access guard *)

Lemma contains_In (l : list string) (x : string) :
  contains l x = true <-> In x l.
Proof.
  unfold contains. rewrite existsb_exists. split.
  - intros [y [Hy Heq]]. apply String.eqb_eq in Heq. now subst.
  - intros Hin. exists x. split; [assumption | apply String.eqb_refl].
Qed.

Lemma contains_not_In (l : list string) (x : string) :
  contains l x = false <-> ~ In x l.
Proof.
  rewrite <- contains_In. destruct (contains l x); split; intro H;
    try reflexivity; try discriminate.
  - exfalso. now apply H.
Qed.

Lemma differs_false (s k : string) : differs s (Some k) = false <-> s = k.
Proof.
  simpl. rewrite negb_false_iff. apply String.eqb_eq.
Qed.

Lemma truthy_Some (s : string) : s <> "" -> truthy (Some s) = true.
Proof.
  intro H. simpl. apply negb_true_iff. now apply String.eqb_neq.
Qed.

(** C1: a request whose peer address is one of the dashboard addresses is
    let through ([verify_api_key] returns, with [None]) whatever credential
    it carries, also with none at all, and whatever [MEM0_API_KEY] is: the
    address test comes first and nothing after it is looked at. *)
Theorem verify_api_key_dashboard_ip (request : Request) (addr : Address)
  (creds : option HTTPAuthorizationCredentials) :
  client request = Some addr ->
  In (host addr) dashboard_ips ->
  verify_api_key request creds = inr None.
Proof.
  intros Hc Hin. unfold verify_api_key. rewrite Hc.
  apply contains_In in Hin. now rewrite Hin.
Qed.

(** C2: from any other address, when [MEM0_API_KEY] is not set (or is
    empty), the guard raises the 500 "API key not configured" error, never
    the 403 one, whatever credential is presented. *)
Theorem verify_api_key_not_configured (request : Request) (addr : Address)
  (creds : option HTTPAuthorizationCredentials) :
  client request = Some addr ->
  ~ In (host addr) dashboard_ips ->
  MEM0_API_KEY = None \/ MEM0_API_KEY = Some "" ->
  verify_api_key request creds = inl (HTTPException 500 "API key not configured").
Proof.
  intros Hc Hout Hkey. unfold verify_api_key. rewrite Hc.
  apply contains_not_In in Hout. rewrite Hout.
  destruct Hkey as [-> | ->]; reflexivity.
Qed.

(** C3: from any other address, with [MEM0_API_KEY] set to a secret, the
    guard returns exactly when a credential is presented and its token is
    equal, as a string, to the secret; it then returns that token, and in
    every other case it raises the 403 "Invalid API key" error. *)
Theorem verify_api_key_credential (request : Request) (addr : Address)
  (creds : option HTTPAuthorizationCredentials) (secret : string) :
  client request = Some addr ->
  ~ In (host addr) dashboard_ips ->
  MEM0_API_KEY = Some secret ->
  secret <> "" ->
  ((exists v, verify_api_key request creds = inr v) <->
   (exists c, creds = Some c /\ credentials c = secret)) /\
  ((exists c, creds = Some c /\ credentials c = secret) ->
   verify_api_key request creds = inr (Some secret)) /\
  (~ (exists c, creds = Some c /\ credentials c = secret) ->
   verify_api_key request creds = inl (HTTPException 403 "Invalid API key")).
Proof.
  intros Hc Hout Hkey Hne. unfold verify_api_key. rewrite Hc.
  apply contains_not_In in Hout. rewrite Hout, Hkey.
  rewrite (truthy_Some secret Hne). cbn [negb].
  destruct creds as [c |].
  - destruct (differs (credentials c) (Some secret)) eqn:Hd.
    + assert (Hneq : credentials c <> secret).
      { intro Heq. apply differs_false in Heq. congruence. }
      repeat split.
      * intros [v Hv]. discriminate.
      * intros [c' [Hc' Heq]]. injection Hc' as <-. contradiction.
      * intros [c' [Hc' Heq]]. injection Hc' as <-. contradiction.
    + apply differs_false in Hd. repeat split.
      * intros _. now exists c.
      * intros _. eexists. reflexivity.
      * intros _. now rewrite Hd.
      * intros Hn. exfalso. apply Hn. now exists c.
  - repeat split.
    + intros [v Hv]. discriminate.
    + intros [c [Hc' _]]. discriminate.
    + intros [c [Hc' _]]. discriminate.
Qed.

(** ** Properties of the handlers *)

Lemma empty_or_absent_truthy (o : option string) :
  empty_or_absent o <-> truthy o = false.
Proof.
  split.
  - intros [-> | ->]; reflexivity.
  - destruct o as [s |]; simpl; intro H.
    + right. apply negb_false_iff, String.eqb_eq in H. now subst.
    + now left.
Qed.

Lemma any_no_identifier (a b c : option string) :
  empty_or_absent a -> empty_or_absent b -> empty_or_absent c ->
  any [truthy a; truthy b; truthy c] = false.
Proof.
  intros Ha Hb Hc. apply empty_or_absent_truthy in Ha, Hb, Hc.
  unfold any. simpl. now rewrite Ha, Hb, Hc.
Qed.

(** When the guard raises, every handler raises the same exception and the
    world is as it was. *)
Lemma guard_first {A : Type} (request : Request)
  (creds : option HTTPAuthorizationCredentials) (k : M Raised A)
  (e : Raised) (w : World) :
  verify_api_key request creds = inl e ->
  (lift (verify_api_key request creds) ;;; k) w = (inl e, w).
Proof.
  intro H. unfold bind, lift. now rewrite H.
Qed.

Lemma guard_then {A : Type} (request : Request)
  (creds : option HTTPAuthorizationCredentials) (k : M Raised A)
  (w : World) :
  guard_passes request creds ->
  (lift (verify_api_key request creds) ;;; k) w = k w.
Proof.
  intros [v H]. unfold bind, lift. now rewrite H.
Qed.

(** The two ways the shared [try]/[except] around one engine call ends. *)
Lemma try_call_raises {A : Type} (c : Call) (k : Any -> M PyException A)
  (e : PyException) (m' : Memory) (w : World) :
  invoke (MEMORY_INSTANCE w) c = (inl e, m') ->
  try_except (v <- MEMORY_INSTANCE_call c ;; k v) server_error w =
  (inl (HTTPException 500 (str e)),
   {| MEMORY_INSTANCE := m'; engine_log := engine_log w ++ [method_event c] |}).
Proof.
  intro H. unfold try_except, bind, MEMORY_INSTANCE_call. now rewrite H.
Qed.

Lemma try_call_returns {A : Type} (c : Call) (a : A) (v : Any)
  (m' : Memory) (w : World) :
  invoke (MEMORY_INSTANCE w) c = (inr v, m') ->
  try_except (x <- MEMORY_INSTANCE_call c ;; ret a) server_error w =
  (inr a,
   {| MEMORY_INSTANCE := m'; engine_log := engine_log w ++ [method_event c] |}).
Proof.
  intro H. unfold try_except, bind, ret, MEMORY_INSTANCE_call. now rewrite H.
Qed.

Ltac guard_cases request creds :=
  unfold bind, lift;
  destruct (verify_api_key request creds) as [?e | ?v] eqn:?Hguard.

(** C4: a create, filter, bulk-get or bulk-delete request whose user,
    agent and run identifiers are all empty or absent never reaches the
    engine (the world, engine record included, is left as it was), and once
    the guard has let it through it fails with the 400 error that asks for
    an identifier. *)
Theorem missing_identifier_is_400 (request : Request)
  (creds : option HTTPAuthorizationCredentials) (w : World)
  (user_id agent_id run_id : option string) :
  empty_or_absent user_id ->
  empty_or_absent agent_id ->
  empty_or_absent run_id ->
  (forall (messages : list Message) (metadata : option Dict),
     let body := {| MemoryCreate.messages := messages;
                    MemoryCreate.user_id := user_id;
                    MemoryCreate.agent_id := agent_id;
                    MemoryCreate.run_id := run_id;
                    MemoryCreate.metadata := metadata |} in
     snd (add_memory request body creds w) = w /\
     (guard_passes request creds ->
      fst (add_memory request body creds w) =
      inl (HTTPException 400
             "At least one identifier (user_id, agent_id, run_id) is required."))) /\
  (forall filters : option Dict,
     let body := {| MemoryFilter.user_id := user_id;
                    MemoryFilter.agent_id := agent_id;
                    MemoryFilter.run_id := run_id;
                    MemoryFilter.filters := filters |} in
     snd (filter_memories_post request (Some body) creds w) = w /\
     (guard_passes request creds ->
      fst (filter_memories_post request (Some body) creds w) =
      inl (HTTPException 400 "At least one identifier is required."))) /\
  (snd (get_all_memories request user_id run_id agent_id creds w) = w /\
   (guard_passes request creds ->
    fst (get_all_memories request user_id run_id agent_id creds w) =
    inl (HTTPException 400 "At least one identifier is required."))) /\
  (snd (delete_all_memories request user_id run_id agent_id creds w) = w /\
   (guard_passes request creds ->
    fst (delete_all_memories request user_id run_id agent_id creds w) =
    inl (HTTPException 400 "At least one identifier is required."))).
Proof.
  intros Hu Ha Hr.
  pose proof (any_no_identifier _ _ _ Hu Ha Hr) as Huar.
  pose proof (any_no_identifier _ _ _ Hu Hr Ha) as Hura.
  repeat split.
  - unfold add_memory. guard_cases request creds; [reflexivity |].
    cbn [MemoryCreate.user_id MemoryCreate.agent_id MemoryCreate.run_id].
    now rewrite Huar.
  - intros [v Hv]. unfold add_memory. unfold bind, lift. rewrite Hv.
    cbn [MemoryCreate.user_id MemoryCreate.agent_id MemoryCreate.run_id].
    now rewrite Huar.
  - unfold filter_memories_post. guard_cases request creds; [reflexivity |].
    cbn [MemoryFilter.user_id MemoryFilter.agent_id MemoryFilter.run_id].
    now rewrite Huar.
  - intros [v Hv]. unfold filter_memories_post. unfold bind, lift. rewrite Hv.
    cbn [MemoryFilter.user_id MemoryFilter.agent_id MemoryFilter.run_id].
    now rewrite Huar.
  - unfold get_all_memories. guard_cases request creds; [reflexivity |].
    now rewrite Hura.
  - intros [v Hv]. unfold get_all_memories. unfold bind, lift. rewrite Hv.
    now rewrite Hura.
  - unfold delete_all_memories. guard_cases request creds; [reflexivity |].
    now rewrite Hura.
  - intros [v Hv]. unfold delete_all_memories. unfold bind, lift. rewrite Hv.
    now rewrite Hura.
Qed.

(** C5: a POST filter request without a body is handled exactly as one
    whose body carries no identifier: same outcome, same world, which is
    the 400 "At least one identifier is required." error once the guard has
    let the request through; nothing is dereferenced on the missing body
    and the engine is not reached. *)
Theorem filter_memories_post_no_body (request : Request)
  (creds : option HTTPAuthorizationCredentials) (w : World) :
  (forall body : MemoryFilter.t,
     empty_or_absent (MemoryFilter.user_id body) ->
     empty_or_absent (MemoryFilter.agent_id body) ->
     empty_or_absent (MemoryFilter.run_id body) ->
     filter_memories_post request None creds w =
     filter_memories_post request (Some body) creds w) /\
  snd (filter_memories_post request None creds w) = w /\
  (guard_passes request creds ->
   fst (filter_memories_post request None creds w) =
   inl (HTTPException 400 "At least one identifier is required.")).
Proof.
  repeat split.
  - intros body Hu Ha Hr.
    pose proof (any_no_identifier _ _ _ Hu Ha Hr) as Hany.
    unfold filter_memories_post. guard_cases request creds; [reflexivity |].
    now rewrite Hany.
  - unfold filter_memories_post. guard_cases request creds; reflexivity.
  - intros [v Hv]. unfold filter_memories_post, bind, lift. now rewrite Hv.
Qed.

(** *** Search *)

(** The guard raises 500, 403 or an attribute error, never a 400. *)
Lemma verify_api_key_not_400 (request : Request)
  (creds : option HTTPAuthorizationCredentials) (detail : string) :
  verify_api_key request creds <> inl (HTTPException 400 detail).
Proof.
  unfold verify_api_key.
  destruct (client request) as [addr |]; [| discriminate].
  destruct (contains dashboard_ips (host addr)); [discriminate |].
  destruct (negb (truthy MEM0_API_KEY)); [discriminate |].
  destruct creds as [c |]; [| discriminate].
  destruct (differs (credentials c) MEM0_API_KEY); discriminate.
Qed.

(** C6, as the code has it: [SearchRequest.query] is any string, the empty
    one included.  A search request with an empty query that the guard lets
    through is forwarded to the engine's [search], once, with the empty
    query and the optional fields that are set; the response is the engine's
    result, or the 500 error carrying the engine's message.  And no 400
    comes out of the search handler at all: for every search request,
    credential, engine and world, whatever the query and whether or not the
    guard lets the request through. *)
Theorem search_memories_empty_query (request : Request)
  (search_req : SearchRequest.t)
  (creds : option HTTPAuthorizationCredentials) (w : World) :
  (SearchRequest.query search_req = "" ->
   guard_passes request creds ->
   let c := search_call "" (not_None_except "query" (safe_dump search_req)) in
   engine_log (snd (search_memories request search_req creds w)) =
     engine_log w ++ [method_event c] /\
   fst (search_memories request search_req creds w) =
     match fst (invoke (MEMORY_INSTANCE w) c) with
     | inl e => inl (HTTPException 500 (str e))
     | inr v => inr (Returned v)
     end) /\
  (forall detail : string,
     fst (search_memories request search_req creds w) <>
     inl (HTTPException 400 detail)).
Proof.
  split.
  - intros Hq Hguard c.
    unfold search_memories. rewrite (guard_then _ _ _ w Hguard).
    rewrite Hq. fold c.
    unfold try_except, bind, ret, server_error, raise, MEMORY_INSTANCE_call.
    destruct (invoke (MEMORY_INSTANCE w) c) as [[e | v] m']; cbn;
      split; reflexivity.
  - intros detail. unfold search_memories.
    pose proof (verify_api_key_not_400 request creds detail) as Hguard.
    unfold bind, lift.
    destruct (verify_api_key request creds) as [e | v]; cbn.
    + congruence.
    + unfold try_except, bind, ret, server_error, raise,
        MEMORY_INSTANCE_call.
      destruct (invoke _ _) as [[e | x] m']; cbn; discriminate.
Qed.

(** *** What is forwarded *)

Lemma In_not_None (k : string) (v : Any) (d : Dict) :
  In (k, v) (not_None d) <-> In (k, v) d /\ v <> ANone.
Proof.
  unfold not_None. rewrite filter_In. cbn [snd].
  split; intros [Hin Hv]; split; try assumption.
  - intro Heq. subst. discriminate.
  - destruct v; try reflexivity. contradiction.
Qed.

(** The keyword arguments [add_memory] builds are the optional fields of
    the body that are not [None], unchanged. *)
Lemma add_memory_params (memory_create : MemoryCreate.t) :
  not_None_except "messages" (safe_dump memory_create) =
  not_None [("user_id", of_str (MemoryCreate.user_id memory_create));
            ("agent_id", of_str (MemoryCreate.agent_id memory_create));
            ("run_id", of_str (MemoryCreate.run_id memory_create));
            ("metadata", of_dict (MemoryCreate.metadata memory_create))].
Proof.
  destruct memory_create as [ms [u |] [a |] [r |] [md |]]; reflexivity.
Qed.

Lemma search_memories_params (search_req : SearchRequest.t) :
  not_None_except "query" (safe_dump search_req) =
  not_None [("user_id", of_str (SearchRequest.user_id search_req));
            ("run_id", of_str (SearchRequest.run_id search_req));
            ("agent_id", of_str (SearchRequest.agent_id search_req));
            ("filters", of_dict (SearchRequest.filters search_req))].
Proof.
  destruct search_req as [q [u |] [r |] [a |] [f |]]; reflexivity.
Qed.

(** A create request that passes the guard and names an identifier makes
    one engine call: [add] with the dumped messages and those arguments. *)
Lemma add_memory_forwards (request : Request) (memory_create : MemoryCreate.t)
  (creds : option HTTPAuthorizationCredentials) (w : World) :
  guard_passes request creds ->
  any [truthy (MemoryCreate.user_id memory_create);
       truthy (MemoryCreate.agent_id memory_create);
       truthy (MemoryCreate.run_id memory_create)] = true ->
  engine_log (snd (add_memory request memory_create creds w)) =
  engine_log w ++
  [method_event
     (add_call (map safe_dump (MemoryCreate.messages memory_create))
        (not_None_except "messages" (safe_dump memory_create)))].
Proof.
  intros Hguard Hany. unfold add_memory.
  rewrite (guard_then _ _ _ w Hguard). rewrite Hany. cbn [negb].
  unfold try_except, bind, ret, server_error, raise, MEMORY_INSTANCE_call,
    JSONResponse_init.
  destruct (invoke _ _) as [[e | v] m']; [reflexivity |].
  destruct (render_error v); reflexivity.
Qed.

Lemma search_memories_forwards (request : Request)
  (search_req : SearchRequest.t)
  (creds : option HTTPAuthorizationCredentials) (w : World) :
  guard_passes request creds ->
  engine_log (snd (search_memories request search_req creds w)) =
  engine_log w ++
  [method_event
     (search_call (SearchRequest.query search_req)
        (not_None_except "query" (safe_dump search_req)))].
Proof.
  intros Hguard. unfold search_memories.
  rewrite (guard_then _ _ _ w Hguard).
  unfold try_except, bind, ret, server_error, raise, MEMORY_INSTANCE_call.
  destruct (invoke _ _) as [[e | v] m']; reflexivity.
Qed.

(** The POST filter handler reads the three identifiers of its body and
    nothing else: the body's [filters] mapping has no effect. *)
Lemma filter_memories_post_ignores_filters (request : Request)
  (u a r : option string) (f f' : option Dict)
  (creds : option HTTPAuthorizationCredentials) (w : World) :
  filter_memories_post request
    (Some {| MemoryFilter.user_id := u; MemoryFilter.agent_id := a;
             MemoryFilter.run_id := r; MemoryFilter.filters := f |}) creds w =
  filter_memories_post request
    (Some {| MemoryFilter.user_id := u; MemoryFilter.agent_id := a;
             MemoryFilter.run_id := r; MemoryFilter.filters := f' |}) creds w.
Proof. reflexivity. Qed.

(** *** Engine exceptions *)

(** Every handler that calls a method of the instance wraps the call in
    [try]/[except] and answers an engine exception with the 500 error that
    carries [str(e)]; the engine has been called once. *)
Lemma handlers_convert_engine_exception (request : Request)
  (creds : option HTTPAuthorizationCredentials) (w : World) :
  guard_passes request creds ->
  (forall memory_id,
     converts_engine_exception (get_memory request memory_id creds)
       (get_call memory_id) w) /\
  (forall search_req,
     converts_engine_exception (search_memories request search_req creds)
       (search_call (SearchRequest.query search_req)
          (not_None_except "query" (safe_dump search_req))) w) /\
  (forall memory_id data,
     converts_engine_exception (update_memory request memory_id data creds)
       (update_call memory_id data) w) /\
  (forall memory_id,
     converts_engine_exception (memory_history request memory_id creds)
       (history_call memory_id) w) /\
  (forall memory_id,
     converts_engine_exception (delete_memory request memory_id creds)
       (delete_call memory_id) w) /\
  converts_engine_exception (reset_memory request creds) reset_call w /\
  (forall memory_create,
     any [truthy (MemoryCreate.user_id memory_create);
          truthy (MemoryCreate.agent_id memory_create);
          truthy (MemoryCreate.run_id memory_create)] = true ->
     converts_engine_exception (add_memory request memory_create creds)
       (add_call (map safe_dump (MemoryCreate.messages memory_create))
          (not_None_except "messages" (safe_dump memory_create))) w) /\
  (forall u r a,
     any [truthy u; truthy r; truthy a] = true ->
     let params := not_None [("user_id", of_str u); ("run_id", of_str r);
                             ("agent_id", of_str a)] in
     converts_engine_exception (get_all_memories request u r a creds)
       (get_all_call params) w /\
     converts_engine_exception (delete_all_memories request u r a creds)
       (delete_all_call params) w).
Proof.
  intros Hguard. unfold converts_engine_exception.
  repeat split; intros;
    cbv delta [get_memory search_memories update_memory memory_history
               delete_memory reset_memory add_memory get_all_memories
               delete_all_memories];
    cbv beta; rewrite (guard_then _ _ _ w Hguard);
    repeat match goal with
           | H : any _ = true |- _ => rewrite H; clear H
           end;
    cbn [negb];
    now apply try_call_raises.
Qed.

(** *** Reconfiguration *)

(** C10: when [Memory.from_config] raises, [set_config] leaves the global
    as it was: the instance held before is the one every later engine call
    is made on, with the same answer. *)
Theorem set_config_failure_keeps_instance (request : Request) (config : Dict)
  (creds : option HTTPAuthorizationCredentials) (w : World)
  (e : PyException) :
  from_config config = inl e ->
  let w' := snd (set_config request config creds w) in
  MEMORY_INSTANCE w' = MEMORY_INSTANCE w /\
  (forall c : Call,
     fst (MEMORY_INSTANCE_call c w') = fst (MEMORY_INSTANCE_call c w) /\
     MEMORY_INSTANCE (snd (MEMORY_INSTANCE_call c w')) =
     MEMORY_INSTANCE (snd (MEMORY_INSTANCE_call c w))).
Proof.
  intros Hfail w'.
  assert (Hsame : MEMORY_INSTANCE w' = MEMORY_INSTANCE w).
  { subst w'. unfold set_config. guard_cases request creds; [reflexivity |].
    unfold uncaught, try_except, Memory_from_config, raise.
    now rewrite Hfail. }
  split; [exact Hsame |].
  intro c. unfold MEMORY_INSTANCE_call. rewrite Hsame.
  destruct (invoke (MEMORY_INSTANCE w) c); split; reflexivity.
Qed.

(** When [Memory.from_config] returns, the new instance replaces the old
    one, whatever the old one was. *)
Lemma set_config_success_replaces (request : Request) (config : Dict)
  (creds : option HTTPAuthorizationCredentials) (w : World) (m : Memory) :
  guard_passes request creds ->
  from_config config = inr m ->
  set_config request config creds w =
  (inr (MessageDict "Configuration set successfully"),
   {| MEMORY_INSTANCE := m;
      engine_log := engine_log w ++ [from_config_event config] |}).
Proof.
  intros Hguard Hok. unfold set_config.
  rewrite (guard_then _ _ _ w Hguard).
  unfold uncaught, try_except, bind, Memory_from_config, raise,
    assign_MEMORY_INSTANCE, ret.
  now rewrite Hok.
Qed.

(** [set_config] has no [try]: an exception of [Memory.from_config] leaves
    the handler uncaught, not as an [HTTPException]. *)
Lemma set_config_failure_uncaught (request : Request) (config : Dict)
  (creds : option HTTPAuthorizationCredentials) (w : World)
  (e : PyException) :
  guard_passes request creds ->
  from_config config = inl e ->
  set_config request config creds w =
  (inl (Uncaught e),
   {| MEMORY_INSTANCE := MEMORY_INSTANCE w;
      engine_log := engine_log w ++ [from_config_event config] |}).
Proof.
  intros Hguard Hfail. unfold set_config.
  rewrite (guard_then _ _ _ w Hguard).
  unfold uncaught, try_except, bind, Memory_from_config, raise.
  now rewrite Hfail.
Qed.

(** ** Further properties of the guard *)

(** X1: the guard lets a request through exactly when the request has a
    peer address and either that address is a dashboard address, or a
    credential is presented whose token is not empty and is the configured
    key.  Without a peer address it never lets one through. *)
Theorem guard_passes_iff (request : Request)
  (creds : option HTTPAuthorizationCredentials) :
  guard_passes request creds <->
  exists addr : Address,
    client request = Some addr /\
    (In (host addr) dashboard_ips \/
     exists c : HTTPAuthorizationCredentials,
       creds = Some c /\ credentials c <> "" /\
       MEM0_API_KEY = Some (credentials c)).
Proof.
  unfold guard_passes, verify_api_key.
  destruct (client request) as [addr |].
  - destruct (contains dashboard_ips (host addr)) eqn:Hdash.
    + split.
      * intros _. exists addr. split; [reflexivity |].
        left. now apply contains_In.
      * intros _. now exists None.
    + apply contains_not_In in Hdash.
      destruct MEM0_API_KEY as [key |]; cbn [truthy].
      * destruct (key =? "") eqn:Hkey; cbn [negb].
        -- apply String.eqb_eq in Hkey. subst key. split.
           ++ intros [v Hv]. discriminate.
           ++ intros [a [Ha [Hin | [c [_ [Hne Hc]]]]]].
              ** injection Ha as <-. contradiction.
              ** injection Hc as Hc. now symmetry in Hc.
        -- apply String.eqb_neq in Hkey.
           destruct creds as [c |].
           ++ destruct (differs (credentials c) (Some key)) eqn:Hd.
              ** split.
                 --- intros [v Hv]. discriminate.
                 --- intros [a [Ha [Hin | [c' [Hc' [_ Hk]]]]]].
                     +++ injection Ha as <-. contradiction.
                     +++ injection Hc' as <-. injection Hk as ->.
                         assert (Hf : differs (credentials c)
                                        (Some (credentials c)) = false)
                           by now apply differs_false.
                         congruence.
              ** apply differs_false in Hd. split.
                 --- intros _. exists addr. split; [reflexivity |].
                     right. exists c. rewrite Hd. now repeat split.
                 --- intros _. eexists. reflexivity.
           ++ split.
              ** intros [v Hv]. discriminate.
              ** intros [a [Ha [Hin | [c [Hc _]]]]].
                 --- injection Ha as <-. contradiction.
                 --- discriminate.
      * cbn [negb]. split.
        -- intros [v Hv]. discriminate.
        -- intros [a [Ha [Hin | [c [_ [_ Hc]]]]]].
           ++ injection Ha as <-. contradiction.
           ++ discriminate.
  - split.
    + intros [v Hv]. discriminate.
    + intros [a [Ha _]]. discriminate.
Qed.

(** X2: when the guard raises, it is in one of three ways, each with its
    own cause: the request has no peer address (an attribute error, left
    uncaught); the peer is not a dashboard address and no key is configured
    (500); the peer is not a dashboard address and a key is configured
    (403).  A 403 is never raised while the key is unset, nor a 500 while
    it is set. *)
Theorem verify_api_key_raises (request : Request)
  (creds : option HTTPAuthorizationCredentials) (e : Raised) :
  verify_api_key request creds = inl e ->
  (client request = None /\
   e = Uncaught (Exception "'NoneType' object has no attribute 'host'")) \/
  (exists addr, client request = Some addr /\
     ~ In (host addr) dashboard_ips /\
     truthy MEM0_API_KEY = false /\
     e = HTTPException 500 "API key not configured") \/
  (exists addr, client request = Some addr /\
     ~ In (host addr) dashboard_ips /\
     truthy MEM0_API_KEY = true /\
     e = HTTPException 403 "Invalid API key").
Proof.
  unfold verify_api_key.
  destruct (client request) as [addr |].
  - destruct (contains dashboard_ips (host addr)) eqn:Hdash;
      [discriminate |].
    apply contains_not_In in Hdash.
    destruct (truthy MEM0_API_KEY) eqn:Hkey; cbn [negb].
    + intro H. right. right. exists addr.
      repeat split; try assumption.
      destruct creds as [c |];
        [destruct (differs (credentials c) MEM0_API_KEY) |];
        congruence.
    + intro H. right. left. exists addr.
      repeat split; try assumption. congruence.
  - intro H. left. split; congruence.
Qed.

(** ** Further properties of the handlers *)

(** X3: when the guard raises, each of the eleven guarded handlers raises
    that same exception and leaves the world as it was: no engine is
    built, no method of the instance is called, the global is not
    rebound, and no identifier check is made. *)
Theorem guard_refusal_stops_every_handler (request : Request)
  (creds : option HTTPAuthorizationCredentials) (e : Raised) (w : World) :
  verify_api_key request creds = inl e ->
  (forall config, set_config request config creds w = (inl e, w)) /\
  (forall memory_create,
     add_memory request memory_create creds w = (inl e, w)) /\
  (forall filter_req,
     filter_memories_post request filter_req creds w = (inl e, w)) /\
  (forall u r a, get_all_memories request u r a creds w = (inl e, w)) /\
  (forall memory_id, get_memory request memory_id creds w = (inl e, w)) /\
  (forall search_req,
     search_memories request search_req creds w = (inl e, w)) /\
  (forall memory_id data,
     update_memory request memory_id data creds w = (inl e, w)) /\
  (forall memory_id, memory_history request memory_id creds w = (inl e, w)) /\
  (forall memory_id, delete_memory request memory_id creds w = (inl e, w)) /\
  (forall u r a, delete_all_memories request u r a creds w = (inl e, w)) /\
  reset_memory request creds w = (inl e, w).
Proof.
  intro Hguard.
  repeat split; intros;
    cbv delta [set_config add_memory filter_memories_post get_all_memories
               get_memory search_memories update_memory memory_history
               delete_memory delete_all_memories reset_memory];
    cbv beta; now apply guard_first.
Qed.

(** X4: the POST filter handler is the GET handler on the body's three
    identifiers: for every body both give the same outcome and the same
    world, and without a body it is the GET handler without any query
    parameter. *)
Theorem filter_memories_post_as_get_all (request : Request)
  (creds : option HTTPAuthorizationCredentials) (w : World) :
  (forall body : MemoryFilter.t,
     filter_memories_post request (Some body) creds w =
     get_all_memories request (MemoryFilter.user_id body)
       (MemoryFilter.run_id body) (MemoryFilter.agent_id body) creds w) /\
  filter_memories_post request None creds w =
  get_all_memories request None None None creds w.
Proof.
  split.
  - intros [u a r f]. unfold filter_memories_post, get_all_memories.
    guard_cases request creds; [reflexivity |].
    cbn [MemoryFilter.user_id MemoryFilter.agent_id MemoryFilter.run_id].
    unfold any. cbn [existsb].
    destruct (truthy u), (truthy a), (truthy r); reflexivity.
  - unfold filter_memories_post, get_all_memories.
    guard_cases request creds; reflexivity.
Qed.

(** *** What comes back from the engine *)

(** Handler [h], whose one engine call is [c], answers a result [v] of that
    call with the response [wrap v], having called the engine once. *)
Definition answers_with (h : M Raised Response) (c : Call)
  (wrap : Any -> Response) (w : World) : Prop :=
  forall (v : Any) (m' : Memory),
    invoke (MEMORY_INSTANCE w) c = (inr v, m') ->
    h w = (inr (wrap v),
           {| MEMORY_INSTANCE := m';
              engine_log := engine_log w ++ [method_event c] |}).


(** The keyword argument an identifier gives rise to: none when it is
    [None], and itself, also when empty, otherwise. *)
Definition given (name : string) (o : option string) : Dict :=
  match o with
  | None => []
  | Some s => [(name, AStr s)]
  end.

Lemma try_call_answers {A : Type} (c : Call) (f : Any -> A) (v : Any)
  (m' : Memory) (w : World) :
  invoke (MEMORY_INSTANCE w) c = (inr v, m') ->
  try_except (x <- MEMORY_INSTANCE_call c ;; ret (f x)) server_error w =
  (inr (f v),
   {| MEMORY_INSTANCE := m'; engine_log := engine_log w ++ [method_event c] |}).
Proof.
  intro H. unfold try_except, bind, ret, MEMORY_INSTANCE_call. now rewrite H.
Qed.

Lemma not_None_given (u r a : option string) :
  not_None [("user_id", of_str u); ("run_id", of_str r); ("agent_id", of_str a)] =
  given "user_id" u ++ given "run_id" r ++ given "agent_id" a.
Proof.
  destruct u, r, a; reflexivity.
Qed.

Ltac enter_handler Hguard w :=
  cbv delta [set_config add_memory filter_memories_post get_all_memories
             get_memory search_memories update_memory memory_history
             delete_memory delete_all_memories reset_memory];
  cbv beta; rewrite (guard_then _ _ _ w Hguard);
  repeat match goal with
         | H : any _ = true |- _ => rewrite H; clear H
         end;
  cbn [negb].

(** X5: the handlers that read or write memories hand the engine's result
    back as it is: what [get], [search], [update], [history] and [get_all]
    return is the handler's return value.  What [add] returns is the
    content of the JSON response when it can be rendered; when building the
    response raises, the handler's own [except] turns that into the 500
    error with the exception's message.  The engine has been called once
    in either case. *)
Theorem engine_result_returned_verbatim (request : Request)
  (creds : option HTTPAuthorizationCredentials) (w : World) :
  guard_passes request creds ->
  (forall memory_id,
     answers_with (get_memory request memory_id creds)
       (get_call memory_id) Returned w) /\
  (forall search_req,
     answers_with (search_memories request search_req creds)
       (search_call (SearchRequest.query search_req)
          (not_None_except "query" (safe_dump search_req))) Returned w) /\
  (forall memory_id data,
     answers_with (update_memory request memory_id data creds)
       (update_call memory_id data) Returned w) /\
  (forall memory_id,
     answers_with (memory_history request memory_id creds)
       (history_call memory_id) Returned w) /\
  (forall memory_create v m',
     any [truthy (MemoryCreate.user_id memory_create);
          truthy (MemoryCreate.agent_id memory_create);
          truthy (MemoryCreate.run_id memory_create)] = true ->
     let c := add_call (map safe_dump (MemoryCreate.messages memory_create))
                (not_None_except "messages" (safe_dump memory_create)) in
     invoke (MEMORY_INSTANCE w) c = (inr v, m') ->
     add_memory request memory_create creds w =
     (match render_error v with
      | None => inr (JSONResponse v)
      | Some e => inl (HTTPException 500 (str e))
      end,
      {| MEMORY_INSTANCE := m';
         engine_log := engine_log w ++ [method_event c] |})) /\
  (forall u r a,
     any [truthy u; truthy r; truthy a] = true ->
     answers_with (get_all_memories request u r a creds)
       (get_all_call
          (not_None [("user_id", of_str u); ("run_id", of_str r);
                     ("agent_id", of_str a)])) Returned w).
Proof.
  intros Hguard. unfold answers_with.
  repeat split; intros; enter_handler Hguard w;
    try (now apply try_call_answers).
  unfold try_except, bind, ret, server_error, raise, MEMORY_INSTANCE_call,
    JSONResponse_init.
  match goal with
  | H : invoke _ _ = _ |- _ => rewrite H
  end.
  destruct (render_error v); reflexivity.
Qed.

(** X6: the handlers that delete or reset drop the engine's result: once
    the engine call has returned, whatever it returned, the response is the
    handler's fixed confirmation message. *)
Theorem confirmation_whatever_engine_returns (request : Request)
  (creds : option HTTPAuthorizationCredentials) (w : World) :
  guard_passes request creds ->
  (forall memory_id,
     answers_with (delete_memory request memory_id creds)
       (delete_call memory_id)
       (fun _ => MessageDict "Memory deleted successfully") w) /\
  (forall u r a,
     any [truthy u; truthy r; truthy a] = true ->
     answers_with (delete_all_memories request u r a creds)
       (delete_all_call
          (not_None [("user_id", of_str u); ("run_id", of_str r);
                     ("agent_id", of_str a)]))
       (fun _ => MessageDict "All relevant memories deleted") w) /\
  answers_with (reset_memory request creds) reset_call
    (fun _ => MessageDict "All memories reset") w.
Proof.
  intros Hguard. unfold answers_with.
  repeat split; intros; enter_handler Hguard w;
    match goal with
    | H : invoke _ _ = _ |- _ =>
        exact (try_call_returns _ _ _ _ _ H)
    end.
Qed.

(** X7: in each of the ten handlers that call a method of the instance, an
    exception raised by that call becomes the 500 error whose detail is
    [str(e)]; the engine has been called once and is not called again. *)
Theorem method_exception_is_500 (request : Request)
  (creds : option HTTPAuthorizationCredentials) (w : World) :
  guard_passes request creds ->
  (forall memory_id,
     converts_engine_exception (get_memory request memory_id creds)
       (get_call memory_id) w) /\
  (forall search_req,
     converts_engine_exception (search_memories request search_req creds)
       (search_call (SearchRequest.query search_req)
          (not_None_except "query" (safe_dump search_req))) w) /\
  (forall memory_id data,
     converts_engine_exception (update_memory request memory_id data creds)
       (update_call memory_id data) w) /\
  (forall memory_id,
     converts_engine_exception (memory_history request memory_id creds)
       (history_call memory_id) w) /\
  (forall memory_id,
     converts_engine_exception (delete_memory request memory_id creds)
       (delete_call memory_id) w) /\
  converts_engine_exception (reset_memory request creds) reset_call w /\
  (forall memory_create,
     any [truthy (MemoryCreate.user_id memory_create);
          truthy (MemoryCreate.agent_id memory_create);
          truthy (MemoryCreate.run_id memory_create)] = true ->
     converts_engine_exception (add_memory request memory_create creds)
       (add_call (map safe_dump (MemoryCreate.messages memory_create))
          (not_None_except "messages" (safe_dump memory_create))) w) /\
  (forall body,
     any [truthy (MemoryFilter.user_id body);
          truthy (MemoryFilter.agent_id body);
          truthy (MemoryFilter.run_id body)] = true ->
     converts_engine_exception
       (filter_memories_post request (Some body) creds)
       (get_all_call
          (not_None [("user_id", of_str (MemoryFilter.user_id body));
                     ("run_id", of_str (MemoryFilter.run_id body));
                     ("agent_id", of_str (MemoryFilter.agent_id body))])) w) /\
  (forall u r a,
     any [truthy u; truthy r; truthy a] = true ->
     converts_engine_exception (get_all_memories request u r a creds)
       (get_all_call
          (not_None [("user_id", of_str u); ("run_id", of_str r);
                     ("agent_id", of_str a)])) w) /\
  (forall u r a,
     any [truthy u; truthy r; truthy a] = true ->
     converts_engine_exception (delete_all_memories request u r a creds)
       (delete_all_call
          (not_None [("user_id", of_str u); ("run_id", of_str r);
                     ("agent_id", of_str a)])) w).
Proof.
  intros Hguard. unfold converts_engine_exception.
  repeat split; intros; enter_handler Hguard w;
    now apply try_call_raises.
Qed.

(** *** How often the engine is reached *)



Lemma try_call_one_event {A : Type} (c : Call) (k : Any -> M PyException A)
  (w : World) :
  (forall v w', engine_log (snd (k v w')) = engine_log w') ->
  engine_log (snd (try_except (v <- MEMORY_INSTANCE_call c ;; k v)
                     server_error w)) =
  engine_log w ++ [method_event c].
Proof.
  intro Hk. unfold try_except, bind, server_error, raise, MEMORY_INSTANCE_call.
  destruct (invoke (MEMORY_INSTANCE w) c) as [[e | v] m']; cbn.
  - reflexivity.
  - specialize (Hk v {| MEMORY_INSTANCE := m';
                        engine_log := engine_log w ++ [method_event c] |}).
    destruct (k v _) as [[e | a] w'']; exact Hk.
Qed.



(** *** What the identifier handlers forward *)

(** X9: the bulk-get and bulk-delete handlers, once the guard has let the
    request through and one identifier is not empty, call the engine with
    one keyword argument for each identifier that is not [None], in the
    order user, run, agent.  An identifier given as the empty string does
    not count as an identifier, but it is forwarded all the same. *)
Theorem identifiers_forwarded (request : Request)
  (creds : option HTTPAuthorizationCredentials) (w : World)
  (u r a : option string) :
  guard_passes request creds ->
  any [truthy u; truthy r; truthy a] = true ->
  let kwargs := given "user_id" u ++ given "run_id" r ++ given "agent_id" a in
  engine_log (snd (get_all_memories request u r a creds w)) =
    engine_log w ++ [method_event (get_all_call kwargs)] /\
  engine_log (snd (delete_all_memories request u r a creds w)) =
    engine_log w ++ [method_event (delete_all_call kwargs)].
Proof.
  intros Hguard Hany kwargs. subst kwargs.
  rewrite <- not_None_given.
  split; enter_handler Hguard w; apply try_call_one_event; reflexivity.
Qed.

(** X10: the create handler makes no check on the message list: with an
    identifier set and the guard passed, a body without any message reaches
    the engine as [add(messages=[], ...)]. *)
Theorem add_memory_without_messages (request : Request)
  (memory_create : MemoryCreate.t)
  (creds : option HTTPAuthorizationCredentials) (w : World) :
  guard_passes request creds ->
  any [truthy (MemoryCreate.user_id memory_create);
       truthy (MemoryCreate.agent_id memory_create);
       truthy (MemoryCreate.run_id memory_create)] = true ->
  MemoryCreate.messages memory_create = [] ->
  engine_log (snd (add_memory request memory_create creds w)) =
    engine_log w ++
    [method_event
       (add_call [] (not_None_except "messages" (safe_dump memory_create)))] /\
  (forall detail,
     fst (add_memory request memory_create creds w) <>
     inl (HTTPException 400 detail)).
Proof.
  intros Hguard Hany Hnil.
  unfold add_memory. rewrite (guard_then _ _ _ w Hguard).
  rewrite Hany, Hnil. cbn [negb map].
  unfold try_except, bind, ret, server_error, raise, MEMORY_INSTANCE_call,
    JSONResponse_init.
  destruct (invoke _ _) as [[e | v] m']; cbn;
    [| destruct (render_error v); cbn]; split;
    try reflexivity; intros detail; discriminate.
Qed.

(** X11: the keyword arguments of [add] and of [search] never hold a
    [None], never repeat the argument passed by name ([messages], [query]),
    and are drawn from the optional fields of the body only. *)
Theorem forwarded_kwargs_are_clean (k : string) (v : Any) :
  (forall memory_create : MemoryCreate.t,
     In (k, v) (not_None_except "messages" (safe_dump memory_create)) ->
     v <> ANone /\ k <> "messages" /\
     In k ["user_id"; "agent_id"; "run_id"; "metadata"]) /\
  (forall search_req : SearchRequest.t,
     In (k, v) (not_None_except "query" (safe_dump search_req)) ->
     v <> ANone /\ k <> "query" /\
     In k ["user_id"; "run_id"; "agent_id"; "filters"]).
Proof.
  split.
  - intros mc Hin. rewrite add_memory_params in Hin.
    apply In_not_None in Hin. destruct Hin as [Hin Hv].
    split; [exact Hv |].
    cbn [In] in Hin.
    destruct Hin as [H | [H | [H | [H | []]]]]; injection H as <- _;
      (split; [discriminate | cbn [In]; tauto]).
  - intros sr Hin. rewrite search_memories_params in Hin.
    apply In_not_None in Hin. destruct Hin as [Hin Hv].
    split; [exact Hv |].
    cbn [In] in Hin.
    destruct Hin as [H | [H | [H | [H | []]]]]; injection H as <- _;
      (split; [discriminate | cbn [In]; tauto]).
Qed.

(** *** Reconfiguration, then use *)

(** X12: after a reconfiguration that succeeded, the next request is served
    by the new instance alone: the handler's answer is the new instance's
    answer (or the 500 error with its message), whatever instance was held
    before, and the record shows the construction followed by that one
    call. *)
Theorem set_config_then_get_memory (request request' : Request)
  (config : Dict) (creds creds' : option HTTPAuthorizationCredentials)
  (m : Memory) (memory_id : string) (w : World) :
  guard_passes request creds ->
  guard_passes request' creds' ->
  from_config config = inr m ->
  let w1 := snd (set_config request config creds w) in
  MEMORY_INSTANCE w1 = m /\
  fst (get_memory request' memory_id creds' w1) =
    match fst (invoke m (get_call memory_id)) with
    | inl e => inl (HTTPException 500 (str e))
    | inr v => inr (Returned v)
    end /\
  engine_log (snd (get_memory request' memory_id creds' w1)) =
    engine_log w ++
    [from_config_event config; method_event (get_call memory_id)].
Proof.
  intros Hguard Hguard' Hok w1. subst w1.
  rewrite (set_config_success_replaces _ _ _ w m Hguard Hok). cbn [snd].
  split; [reflexivity |].
  unfold get_memory. rewrite (guard_then _ _ _ _ Hguard').
  unfold try_except, bind, ret, server_error, raise, MEMORY_INSTANCE_call.
  cbn [MEMORY_INSTANCE engine_log].
  destruct (invoke m (get_call memory_id)) as [[e | v] m']; cbn;
    rewrite <- app_assoc; split; reflexivity.
Qed.

End Server.

(** ** The handlers at work on the small engine *)

Definition toy_world : @World Dict :=
  {| MEMORY_INSTANCE := [("version", AStr "v1.1")]; engine_log := [] |}.

Definition outside_address : Address := {| host := "9.9.9.9"; port := 51844 |}.

Definition dashboard_address : Address :=
  {| host := "10.0.1.151"; port := 40312 |}.

Lemma outside_not_dashboard : ~ In (host outside_address) dashboard_ips.
Proof.
  intros [H | [H | []]]; discriminate H.
Defined.

Lemma dashboard_passes (key : option string)
  (creds : option HTTPAuthorizationCredentials) :
  guard_passes key dashboard_request creds.
Proof.
  exists None. reflexivity.
Defined.

(** *** The guard *)

Lemma verify_api_key_dashboard_ip_witness :
  verify_api_key None dashboard_request None = inr None.
Proof.
  apply (verify_api_key_dashboard_ip None dashboard_request dashboard_address None).
  - reflexivity.
  - left. reflexivity.
Defined.

Lemma verify_api_key_not_configured_witness :
  verify_api_key None outside_request (bearer "abc") =
  inl (HTTPException 500 "API key not configured").
Proof.
  apply (verify_api_key_not_configured None outside_request outside_address
           (bearer "abc")).
  - reflexivity.
  - exact outside_not_dashboard.
  - left. reflexivity.
Defined.

Lemma verify_api_key_credential_witness :
  verify_api_key (Some "abc") outside_request (bearer "abc") = inr (Some "abc").
Proof.
  edestruct (verify_api_key_credential (Some "abc") outside_request
               outside_address (bearer "abc") "abc") as [_ [Hallow _]].
  - reflexivity.
  - exact outside_not_dashboard.
  - reflexivity.
  - discriminate.
  - apply Hallow. eexists. split; reflexivity.
Defined.

(** The comparison is plain string equality: another case, a trailing blank
    or no credential at all are refused; an empty key counts as no key. *)
Example verify_api_key_other_case :
  verify_api_key (Some "abc") outside_request (bearer "ABC") =
  inl (HTTPException 403 "Invalid API key").
Proof. reflexivity. Qed.

Example verify_api_key_trailing_blank :
  verify_api_key (Some "abc") outside_request (bearer "abc ") =
  inl (HTTPException 403 "Invalid API key").
Proof. reflexivity. Qed.

Example verify_api_key_no_credential :
  verify_api_key (Some "abc") outside_request None =
  inl (HTTPException 403 "Invalid API key").
Proof. reflexivity. Qed.

Example verify_api_key_empty_key :
  verify_api_key (Some "") outside_request (bearer "") =
  inl (HTTPException 500 "API key not configured").
Proof. reflexivity. Qed.

Example verify_api_key_no_client :
  verify_api_key (Some "abc") {| client := None |} (bearer "abc") =
  inl (Uncaught (Exception "'NoneType' object has no attribute 'host'")).
Proof. reflexivity. Qed.

(** *** Required identifiers *)

Lemma missing_identifier_is_400_witness :
  snd (get_all_memories None toy_invoke dashboard_request
         None None (Some "") None toy_world) = toy_world /\
  fst (get_all_memories None toy_invoke dashboard_request
         None None (Some "") None toy_world) =
  inl (HTTPException 400 "At least one identifier is required.").
Proof.
  edestruct (missing_identifier_is_400 None toy_invoke toy_render_error
               dashboard_request None
               toy_world None (Some "") None) as [_ [_ [[Hw Hr] _]]].
  - left. reflexivity.
  - right. reflexivity.
  - left. reflexivity.
  - split; [exact Hw | apply Hr, dashboard_passes].
Defined.

Example add_memory_without_identifier :
  add_memory (Some "abc") toy_invoke toy_render_error outside_request
    {| MemoryCreate.messages := [{| role := "user"; content := "hi" |}];
       MemoryCreate.user_id := None;
       MemoryCreate.agent_id := None;
       MemoryCreate.run_id := None;
       MemoryCreate.metadata := None |} (bearer "abc") toy_world =
  (inl (HTTPException 400
          "At least one identifier (user_id, agent_id, run_id) is required."),
   toy_world).
Proof. reflexivity. Qed.

Example filter_memories_post_without_body :
  filter_memories_post (Some "abc") toy_invoke outside_request None
    (bearer "abc") toy_world =
  (inl (HTTPException 400 "At least one identifier is required."), toy_world).
Proof. reflexivity. Qed.

(** *** Search with an empty query *)

Definition empty_query : SearchRequest.t :=
  {| SearchRequest.query := "";
     SearchRequest.user_id := None;
     SearchRequest.run_id := None;
     SearchRequest.agent_id := None;
     SearchRequest.filters := None |}.

(** C6 fails on the code: an empty query is not refused.  The search
    handler returns the engine's answer and the engine has been called with
    the empty query. *)
Lemma search_memories_empty_query_reaches_engine :
  fst (search_memories None toy_invoke dashboard_request empty_query None
         toy_world) =
  inr (Returned (AList [AStr ""; ADict []])) /\
  engine_log (snd (search_memories None toy_invoke dashboard_request
                     empty_query None toy_world)) =
  [method_event (search_call "" [])] /\
  (forall detail : string,
     fst (search_memories None toy_invoke dashboard_request empty_query None
            toy_world) <> inl (HTTPException 400 detail)).
Proof.
  repeat split. intros detail. discriminate.
Qed.

Lemma search_memories_empty_query_witness :
  engine_log (snd (search_memories (Some "abc") toy_invoke dashboard_request
                     empty_query (bearer "xyz") toy_world)) =
  [method_event (search_call "" [])].
Proof.
  destruct (search_memories_empty_query (Some "abc") toy_invoke
              dashboard_request empty_query (bearer "xyz") toy_world)
    as [Hforward _].
  edestruct Hforward as [Hlog _].
  - reflexivity.
  - apply dashboard_passes.
  - exact Hlog.
Defined.

(** *** What the POST filter handler forwards *)

(** C7, at a body that sets [filters]: the POST filter handler calls
    [get_all] with the user identifier alone; the [filters] mapping of the
    body, which is not [None], is not among the arguments. *)
Theorem filter_memories_post_drops_filters :
  filter_memories_post (Some "abc") toy_invoke outside_request
    (Some {| MemoryFilter.user_id := Some "alice";
             MemoryFilter.agent_id := None;
             MemoryFilter.run_id := None;
             MemoryFilter.filters := Some [("topic", AStr "travel")] |})
    (bearer "abc") toy_world =
  (inr (Returned (ADict [("user_id", AStr "alice")])),
   {| MEMORY_INSTANCE := MEMORY_INSTANCE toy_world;
      engine_log := [method_event (get_all_call [("user_id", AStr "alice")])] |}).
Proof. reflexivity. Qed.

(** The search handler, given the same mapping, does forward it. *)
Example search_memories_forwards_filters :
  engine_log
    (snd (search_memories (Some "abc") toy_invoke outside_request
            {| SearchRequest.query := "beach";
               SearchRequest.user_id := Some "alice";
               SearchRequest.run_id := None;
               SearchRequest.agent_id := None;
               SearchRequest.filters := Some [("topic", AStr "travel")] |}
            (bearer "abc") toy_world)) =
  [method_event
     (search_call "beach"
        [("user_id", AStr "alice");
         ("filters", ADict [("topic", AStr "travel")])])].
Proof. reflexivity. Qed.

Example add_memory_strips_None :
  engine_log
    (snd (add_memory (Some "abc") toy_invoke toy_render_error outside_request
            {| MemoryCreate.messages := [{| role := "user"; content := "hi" |}];
               MemoryCreate.user_id := None;
               MemoryCreate.agent_id := Some "bot";
               MemoryCreate.run_id := None;
               MemoryCreate.metadata := None |}
            (bearer "abc") toy_world)) =
  [method_event
     (add_call [[("role", AStr "user"); ("content", AStr "hi")]]
        [("agent_id", AStr "bot")])].
Proof. reflexivity. Qed.

(** *** Engine exceptions *)

(** C8, at a configuration the engine refuses: the exception of
    [Memory.from_config] leaves [set_config] as it is, uncaught; no
    [HTTPException] with status 500 and the engine's message is raised. *)
Theorem set_config_engine_exception_uncaught :
  set_config (Some "abc") toy_from_config outside_request [] (bearer "abc")
    toy_world =
  (inl (Uncaught (Exception "empty configuration")),
   {| MEMORY_INSTANCE := MEMORY_INSTANCE toy_world;
      engine_log := [from_config_event []] |}).
Proof. reflexivity. Qed.

(** A method of the instance that raises is answered with the 500 error. *)
Example get_memory_engine_exception :
  get_memory (Some "abc") toy_invoke outside_request "" (bearer "abc")
    toy_world =
  (inl (HTTPException 500 "memory not found"),
   {| MEMORY_INSTANCE := MEMORY_INSTANCE toy_world;
      engine_log := [method_event (get_call "")] |}).
Proof. reflexivity. Qed.

(** *** Reconfiguration *)

Lemma set_config_failure_keeps_instance_witness :
  MEMORY_INSTANCE
    (snd (set_config (Some "abc") toy_from_config outside_request []
            (bearer "abc") toy_world)) =
  MEMORY_INSTANCE toy_world.
Proof.
  edestruct (set_config_failure_keeps_instance (Some "abc") toy_from_config
               toy_invoke outside_request [] (bearer "abc") toy_world
               (Exception "empty configuration")) as [Hsame _].
  - reflexivity.
  - exact Hsame.
Defined.

Example set_config_replaces_instance :
  set_config (Some "abc") toy_from_config outside_request
    [("version", AStr "v2")] (bearer "abc") toy_world =
  (inr (MessageDict "Configuration set successfully"),
   {| MEMORY_INSTANCE := [("version", AStr "v2")];
      engine_log := [from_config_event [("version", AStr "v2")]] |}).
Proof. reflexivity. Qed.

(** *** Further runs on the small engine *)

Lemma outside_passes :
  guard_passes (Some "abc") outside_request (bearer "abc").
Proof.
  exists (Some "abc"). reflexivity.
Defined.

Lemma verify_api_key_raises_witness :
  (client outside_request = None /\
   HTTPException 403 "Invalid API key" =
   Uncaught (Exception "'NoneType' object has no attribute 'host'")) \/
  (exists addr, client outside_request = Some addr /\
     ~ In (host addr) dashboard_ips /\
     truthy (Some "abc") = false /\
     HTTPException 403 "Invalid API key" =
     HTTPException 500 "API key not configured") \/
  (exists addr, client outside_request = Some addr /\
     ~ In (host addr) dashboard_ips /\
     truthy (Some "abc") = true /\
     HTTPException 403 "Invalid API key" =
     HTTPException 403 "Invalid API key").
Proof.
  apply (verify_api_key_raises (Some "abc") outside_request (bearer "xyz")).
  reflexivity.
Defined.

Lemma guard_refusal_stops_every_handler_witness :
  set_config (Some "abc") toy_from_config outside_request
    [("version", AStr "v2")] (bearer "xyz") toy_world =
  (inl (HTTPException 403 "Invalid API key"), toy_world).
Proof.
  edestruct (guard_refusal_stops_every_handler (Some "abc") toy_from_config
               toy_invoke toy_render_error outside_request (bearer "xyz")
               (HTTPException 403 "Invalid API key") toy_world) as [H _].
  - reflexivity.
  - apply H.
Defined.

Lemma engine_result_returned_verbatim_witness :
  get_memory (Some "abc") toy_invoke outside_request "m1" (bearer "abc")
    toy_world =
  (inr (Returned (AStr "m1")),
   {| MEMORY_INSTANCE := MEMORY_INSTANCE toy_world;
      engine_log := [method_event (get_call "m1")] |}).
Proof.
  edestruct (engine_result_returned_verbatim (Some "abc") toy_invoke
               toy_render_error
               outside_request (bearer "abc") toy_world) as [H _].
  - exact outside_passes.
  - apply (H "m1"). reflexivity.
Defined.

Lemma confirmation_whatever_engine_returns_witness :
  delete_memory (Some "abc") toy_invoke outside_request "m1" (bearer "abc")
    toy_world =
  (inr (MessageDict "Memory deleted successfully"),
   {| MEMORY_INSTANCE := MEMORY_INSTANCE toy_world;
      engine_log := [method_event (delete_call "m1")] |}).
Proof.
  edestruct (confirmation_whatever_engine_returns (Some "abc") toy_invoke
               outside_request (bearer "abc") toy_world) as [H _].
  - exact outside_passes.
  - apply (H "m1" ANone). reflexivity.
Defined.

Lemma method_exception_is_500_witness :
  get_memory (Some "abc") toy_invoke outside_request "" (bearer "abc")
    toy_world =
  (inl (HTTPException 500 "memory not found"),
   {| MEMORY_INSTANCE := MEMORY_INSTANCE toy_world;
      engine_log := [method_event (get_call "")] |}).
Proof.
  edestruct (method_exception_is_500 (Some "abc") toy_invoke
               toy_render_error
               outside_request (bearer "abc") toy_world) as [H _].
  - exact outside_passes.
  - apply (H "" (Exception "memory not found")). reflexivity.
Defined.

Lemma identifiers_forwarded_witness :
  engine_log (snd (get_all_memories (Some "abc") toy_invoke outside_request
                     (Some "alice") None (Some "") (bearer "abc") toy_world)) =
  [method_event (get_all_call [("user_id", AStr "alice"); ("agent_id", AStr "")])].
Proof.
  edestruct (identifiers_forwarded (Some "abc") toy_invoke outside_request
               (bearer "abc") toy_world (Some "alice") None (Some ""))
    as [H _].
  - exact outside_passes.
  - reflexivity.
  - exact H.
Defined.

Definition no_messages : MemoryCreate.t :=
  {| MemoryCreate.messages := [];
     MemoryCreate.user_id := Some "alice";
     MemoryCreate.agent_id := None;
     MemoryCreate.run_id := None;
     MemoryCreate.metadata := None |}.

Lemma add_memory_without_messages_witness :
  engine_log (snd (add_memory (Some "abc") toy_invoke toy_render_error
                     outside_request
                     no_messages (bearer "abc") toy_world)) =
  [method_event (add_call [] [("user_id", AStr "alice")])].
Proof.
  edestruct (add_memory_without_messages (Some "abc") toy_invoke
               toy_render_error
               outside_request no_messages (bearer "abc") toy_world)
    as [H _].
  - exact outside_passes.
  - reflexivity.
  - reflexivity.
  - exact H.
Defined.

Lemma set_config_then_get_memory_witness :
  fst (get_memory (Some "abc") toy_invoke dashboard_request "m1" None
         (snd (set_config (Some "abc") toy_from_config outside_request
                 [("version", AStr "v2")] (bearer "abc") toy_world))) =
  inr (Returned (AStr "m1")) /\
  engine_log
    (snd (get_memory (Some "abc") toy_invoke dashboard_request "m1" None
            (snd (set_config (Some "abc") toy_from_config outside_request
                    [("version", AStr "v2")] (bearer "abc") toy_world)))) =
  [from_config_event [("version", AStr "v2")]; method_event (get_call "m1")].
Proof.
  edestruct (set_config_then_get_memory (Some "abc") toy_from_config
               toy_invoke outside_request dashboard_request
               [("version", AStr "v2")] (bearer "abc") None
               [("version", AStr "v2")] "m1" toy_world) as [_ [Hr Hl]].
  - exact outside_passes.
  - apply dashboard_passes.
  - reflexivity.
  - split; [exact Hr | exact Hl].
Defined.

(** *** The response of the create handler *)

Definition one_message : MemoryCreate.t :=
  {| MemoryCreate.messages := [{| role := "user"; content := "hi" |}];
     MemoryCreate.user_id := Some "alice";
     MemoryCreate.agent_id := None;
     MemoryCreate.run_id := None;
     MemoryCreate.metadata := None |}.

Example add_memory_rendered :
  fst (add_memory (Some "abc") toy_invoke toy_render_error outside_request
         one_message (bearer "abc") toy_world) =
  inr (JSONResponse (AInt 1)).
Proof. reflexivity. Qed.

(** When the response cannot be built the engine has been called all the
    same, and the handler's [except] answers with the 500 error. *)
Example add_memory_not_rendered :
  add_memory (Some "abc") toy_invoke no_int_render_error outside_request
    one_message (bearer "abc") toy_world =
  (inl (HTTPException 500 "Object of type int64 is not JSON serializable"),
   {| MEMORY_INSTANCE := MEMORY_INSTANCE toy_world;
      engine_log :=
        [method_event
           (add_call [[("role", AStr "user"); ("content", AStr "hi")]]
              [("user_id", AStr "alice")])] |}).
Proof. reflexivity. Qed.
